(** * Age and Era Calculator: the calculation core of [logic.py]

    A shallow embedding of [parse_birthdate], [compute_periods],
    [decade_label], [get_generation], [get_star_sign] and
    [generate_summary], together with the part of Python's [datetime.date]
    they rely on and the submit handler of [app.py] that calls them,
    followed by the properties of the specification and further properties
    read off the code. *)

From Stdlib Require Import ZArith String Ascii List Bool Lia DecimalString.
From Stdlib Require DecimalFacts DecimalZ.
Import ListNotations.

Local Open Scope string_scope.
Local Open Scope Z_scope.

(* ===================================================================== *)
(** ** Exceptions and fallible computations *)
(* ===================================================================== *)

(** The exception classes the module meets.  Every one of them derives from
    [Exception]; [OtherException] stands for whatever class the provider's
    client raises (connection, authentication, rate limit, ...). *)
Inductive exn : Type :=
| ValueError (msg : string)
| IndexError (msg : string)
| AttributeError (msg : string)
| OtherException (cls msg : string).

(** [str(e)], as the f-string [f"{e}"] renders an exception. *)
Definition exn_str (e : exn) : string :=
  match e with
  | ValueError msg | IndexError msg | AttributeError msg => msg
  | OtherException _ msg => msg
  end.

Definition is_ValueError (e : exn) : bool :=
  match e with ValueError _ => true | _ => false end.

(** [except Exception] catches every class above. *)
Definition is_Exception (e : exn) : bool := true.

(** A call either returns a value or raises. *)
Inductive result (A : Type) : Type :=
| Ok (a : A)
| Raise (e : exn).
Arguments Ok {A} a.
Arguments Raise {A} e.

Definition ret {A : Type} (a : A) : result A := Ok a.

Definition bind {A B : Type} (c : result A) (k : A -> result B) : result B :=
  match c with
  | Ok a => k a
  | Raise e => Raise e
  end.

(** [try: c  except <class> as e: h e] *)
Definition try_except {A : Type} (c : result A) (catches : exn -> bool)
    (h : exn -> result A) : result A :=
  match c with
  | Ok a => Ok a
  | Raise e => if catches e then h e else Raise e
  end.

Declare Scope result_scope.
Delimit Scope result_scope with result.
Notation "x <- c ;; k" := (bind c (fun x => k))
  (at level 61, c at next level, right associativity) : result_scope.
Local Open Scope result_scope.

Definition returns {A : Type} (c : result A) : bool :=
  match c with Ok _ => true | Raise _ => false end.

(* ===================================================================== *)
(** ** Python values used by the module *)
(* ===================================================================== *)

(** [str(n)] for an [int]: decimal digits, a leading minus sign when
    negative. *)
Definition str_int (n : Z) : string := NilZero.string_of_int (Z.to_int n).

Definition nl : string := String (ascii_of_nat 10) EmptyString.

(** The ASCII characters for which [str.isspace] holds. *)
Definition isspace (c : ascii) : bool :=
  let n := Z.of_nat (nat_of_ascii c) in
  ((9 <=? n) && (n <=? 13)) || ((28 <=? n) && (n <=? 32)).

Fixpoint lstrip (s : string) : string :=
  match s with
  | String c s' => if isspace c then lstrip s' else s
  | EmptyString => EmptyString
  end.

Fixpoint rev_string (s acc : string) : string :=
  match s with
  | String c s' => rev_string s' (String c acc)
  | EmptyString => acc
  end.

(** [s.strip()] *)
Definition strip (s : string) : string :=
  rev_string (lstrip (rev_string (lstrip s) EmptyString)) EmptyString.

(** [not s] for an [Optional[str]]: [None] and the empty string are falsy. *)
Definition falsy (s : option string) : bool :=
  match s with
  | None => true
  | Some EmptyString => true
  | Some (String _ _) => false
  end.

(* ===================================================================== *)
(** ** [datetime.date] *)
(* ===================================================================== *)

Record date : Type := mkDate { year : Z; month : Z; day : Z }.

Definition MINYEAR : Z := 1.
Definition MAXYEAR : Z := 9999.

Definition is_leap (y : Z) : bool :=
  (y mod 4 =? 0) && (negb (y mod 100 =? 0) || (y mod 400 =? 0)).

Definition DAYS_IN_MONTH : list Z :=
  [-1; 31; 28; 31; 30; 31; 30; 31; 31; 30; 31; 30; 31].

Definition days_in_month (y m : Z) : Z :=
  if (m =? 2) && is_leap y then 29 else nth (Z.to_nat m) DAYS_IN_MONTH 0.

(** The constructor [date(y, m, d)]: it checks the three fields in turn and
    raises [ValueError] for a date that does not exist.  The messages are
    those of CPython's implementation; no property below depends on their
    wording. *)
Definition new_date (y m d : Z) : result date :=
  if negb ((MINYEAR <=? y) && (y <=? MAXYEAR)) then
    Raise (ValueError ("year " ++ str_int y ++ " is out of range"))
  else if negb ((1 <=? m) && (m <=? 12)) then
    Raise (ValueError "month must be in 1..12")
  else if negb ((1 <=? d) && (d <=? days_in_month y m)) then
    Raise (ValueError "day is out of range for month")
  else Ok (mkDate y m d).

(** The values of type [date]: the triples the constructor accepts. *)
Definition valid_date (b : date) : bool :=
  (MINYEAR <=? year b) && (year b <=? MAXYEAR) &&
  (1 <=? month b) && (month b <=? 12) &&
  (1 <=? day b) && (day b <=? days_in_month (year b) (month b)).

(** [b.replace(year=y)] builds a new date from the changed fields. *)
Definition replace_year (b : date) (y : Z) : result date :=
  new_date y (month b) (day b).

(** Dates compare as the tuples (year, month, day). *)
Definition date_ltb (a b : date) : bool :=
  (year a <? year b) ||
  ((year a =? year b) &&
   ((month a <? month b) || ((month a =? month b) && (day a <? day b)))).

Definition date_gtb (a b : date) : bool := date_ltb b a.
Definition date_leb (a b : date) : bool := negb (date_ltb b a).

(* ===================================================================== *)
(** ** Pure calculations *)
(* ===================================================================== *)

(** [parse_birthdate], with its two keyword arguments [age] and [dob], both
    [None] by default; [today] is the value of [date.today()]. *)
Definition parse_birthdate (today : date) (age : option Z) (dob : option date)
    : result date :=
  match dob, age with
  | Some _, Some _ =>
      Raise (ValueError "Please specify either age or date of birth, not both.")
  | Some d, None =>
      if date_gtb d today then
        Raise (ValueError "Date of birth cannot be in the future.")
      else Ok d
  | None, Some a =>
      if negb ((0 <? a) && (a <? 130)) then
        Raise (ValueError "Age must be between 1 and 129.")
      else
        try_except
          (new_date (year today - a) (month today) (day today))
          is_ValueError
          (fun _ => new_date (year today - a) (month today) (day today - 1))
  | None, None =>
      Raise (ValueError "Please specify either age or date of birth.")
  end.

Definition periods : Type := (date * date * date * date * date * date)%type.

Definition compute_periods (birth : date) : result periods :=
  child_start <- replace_year birth (year birth + 5) ;;
  child_end <- replace_year birth (year birth + 12) ;;
  teen_start <- replace_year birth (year birth + 13) ;;
  teen_end <- replace_year birth (year birth + 19) ;;
  ya_start <- replace_year birth (year birth + 20) ;;
  ya_end <- replace_year birth (year birth + 29) ;;
  ret (child_start, child_end, teen_start, teen_end, ya_start, ya_end).

Definition decade_label (y : Z) : string :=
  let decade := (y / 10) * 10 in
  str_int decade ++ "s".

Definition get_generation (y : Z) : string :=
  if (1928 <=? y) && (y <=? 1945) then "Silent Generation"
  else if (1946 <=? y) && (y <=? 1964) then "Baby Boomer"
  else if (1965 <=? y) && (y <=? 1980) then "Generation X"
  else if (1981 <=? y) && (y <=? 1996) then "Millennial"
  else if (1997 <=? y) && (y <=? 2012) then "Generation Z"
  else if y >=? 2013 then "Generation Alpha"
  else "Unknown".

Definition get_star_sign (birth : date) : string :=
  let m := month birth in
  let d := day birth in
  if ((m =? 12) && (d >=? 22)) || ((m =? 1) && (d <=? 19)) then "Capricorn"
  else if ((m =? 1) && (d >=? 20)) || ((m =? 2) && (d <=? 18)) then "Aquarius"
  else if ((m =? 2) && (d >=? 19)) || ((m =? 3) && (d <=? 20)) then "Pisces"
  else if ((m =? 3) && (d >=? 21)) || ((m =? 4) && (d <=? 19)) then "Aries"
  else if ((m =? 4) && (d >=? 20)) || ((m =? 5) && (d <=? 20)) then "Taurus"
  else if ((m =? 5) && (d >=? 21)) || ((m =? 6) && (d <=? 20)) then "Gemini"
  else if ((m =? 6) && (d >=? 21)) || ((m =? 7) && (d <=? 22)) then "Cancer"
  else if ((m =? 7) && (d >=? 23)) || ((m =? 8) && (d <=? 22)) then "Leo"
  else if ((m =? 8) && (d >=? 23)) || ((m =? 9) && (d <=? 22)) then "Virgo"
  else if ((m =? 9) && (d >=? 23)) || ((m =? 10) && (d <=? 22)) then "Libra"
  else if ((m =? 10) && (d >=? 23)) || ((m =? 11) && (d <=? 21)) then "Scorpio"
  else if ((m =? 11) && (d >=? 22)) || ((m =? 12) && (d <=? 21)) then "Sagittarius"
  else "Unknown".

(** The twelve conditions of [get_star_sign], in the order the function
    tests them, each with the sign it returns. *)
Definition sign_ranges : list (string * (Z -> Z -> bool)) :=
  [ ("Capricorn",   fun m d => ((m =? 12) && (d >=? 22)) || ((m =? 1) && (d <=? 19)));
    ("Aquarius",    fun m d => ((m =? 1) && (d >=? 20)) || ((m =? 2) && (d <=? 18)));
    ("Pisces",      fun m d => ((m =? 2) && (d >=? 19)) || ((m =? 3) && (d <=? 20)));
    ("Aries",       fun m d => ((m =? 3) && (d >=? 21)) || ((m =? 4) && (d <=? 19)));
    ("Taurus",      fun m d => ((m =? 4) && (d >=? 20)) || ((m =? 5) && (d <=? 20)));
    ("Gemini",      fun m d => ((m =? 5) && (d >=? 21)) || ((m =? 6) && (d <=? 20)));
    ("Cancer",      fun m d => ((m =? 6) && (d >=? 21)) || ((m =? 7) && (d <=? 22)));
    ("Leo",         fun m d => ((m =? 7) && (d >=? 23)) || ((m =? 8) && (d <=? 22)));
    ("Virgo",       fun m d => ((m =? 8) && (d >=? 23)) || ((m =? 9) && (d <=? 22)));
    ("Libra",       fun m d => ((m =? 9) && (d >=? 23)) || ((m =? 10) && (d <=? 22)));
    ("Scorpio",     fun m d => ((m =? 10) && (d >=? 23)) || ((m =? 11) && (d <=? 21)));
    ("Sagittarius", fun m d => ((m =? 11) && (d >=? 22)) || ((m =? 12) && (d <=? 21))) ].

(** The signs whose range contains the pair (month, day). *)
Definition matching_signs (m d : Z) : list string :=
  map fst (filter (fun r => snd r m d) sign_ranges).

(* ===================================================================== *)
(** ** LLM integration (optional) *)
(* ===================================================================== *)

(** The keyword arguments of [client.chat.completions.create]. *)
Record request : Type := mkRequest {
  model : string;
  messages : list (string * string);   (* role, content *)
  temperature : string;                (* the literal as written *)
  max_tokens : Z
}.

(** What the function reads of a response: [message.content] of each entry
    of [choices], [None] when the provider sent no text. *)
Definition response : Type := list (option string).

(** The world outside the module: the process environment ([os.getenv]) and
    the imported client class, [None] when the import failed.  Building a
    client only stores the key, so a client is represented by its one method
    in use, [chat.completions.create], given the key it was built with. *)
Record environment : Type := mkEnv {
  getenv : string -> option string;
  OpenAI : option (string -> request -> result response)
}.

Definition span (a b : Z) : string := str_int a ++ "-" ++ str_int b.

(** [_SYSTEM_PROMPT.format(...)] *)
Definition SYSTEM_PROMPT (child_start child_end teen_start teen_end
    ya_start ya_end : Z) (country : string) : string :=
  "You are a cultural historian. For an individual from " ++ country ++
  ", provide a personalized cultural summary for the following periods: childhood (" ++
  span child_start child_end ++ "), teenage years (" ++ span teen_start teen_end ++
  "), and young adult years (" ++ span ya_start ya_end ++ ")." ++ nl ++ nl ++
  "Present the information using Markdown. Do NOT add any overall title or introduction before the 'Childhood' section. Use the following structure EXACTLY:" ++ nl ++ nl ++
  "Childhood (" ++ span child_start child_end ++ ")" ++ nl ++
  "- **Event/Trend Title 1:** [Brief, personalized description of its relevance to a child of that age in " ++ country ++
  " (also consider wider UK influences like popular music, TV, or national events where significant) during those years. Maximum 2-3 sentences.]" ++ nl ++
  "- **Event/Trend Title 2:** [Brief, personalized description as above... Maximum 2-3 sentences.]" ++ nl ++
  nl ++
  "Teenage Years (" ++ span teen_start teen_end ++ ")" ++ nl ++
  "- **Event/Trend Title 1:** [Brief, personalized description of its relevance to a teenager of that age in " ++ country ++
  " (also consider wider UK influences like popular music, TV, or national events where significant) during those years. Maximum 2-3 sentences.]" ++ nl ++
  "- **Event/Trend Title 2:** [Brief, personalized description as above... Maximum 2-3 sentences.]" ++ nl ++
  nl ++
  "Young Adult Years (" ++ span ya_start ya_end ++ ")" ++ nl ++
  "- **Event/Trend Title 1:** [Brief, personalized description of its relevance to a young adult of that age in " ++ country ++
  " (also consider wider UK influences like popular music, TV, or national events where significant) during those years. Maximum 2-3 sentences.]" ++ nl ++
  "- **Event/Trend Title 2:** [Brief, personalized description as above... Maximum 2-3 sentences.]" ++ nl ++
  nl ++
  "Ensure you provide 3 to 4 bullet-pointed items for each of the three periods." ++ nl ++
  "The descriptions for each item MUST be very concise (2-3 sentences maximum) and focus on the personal impact and experience for someone of that specific age primarily in " ++ country ++
  ", while acknowledging significant broader UK cultural influences where applicable (e.g., music, national media, major political shifts)." ++ nl ++
  "The tone should be engaging.".

Definition PLACEHOLDER : string :=
  "(OpenAI API key not configured or library not found, so here is a placeholder.)" ++ nl ++
  "Imagine descriptions of pop culture, music scenes, and societal " ++
  "changes spanning the requested years here.".

(** [response.choices[0].message.content.strip()] *)
Definition first_content (r : response) : result string :=
  match r with
  | [] => Raise (IndexError "list index out of range")
  | None :: _ => Raise (AttributeError "'NoneType' object has no attribute 'strip'")
  | Some s :: _ => Ok (strip s)
  end.

Definition generate_summary (env : environment)
    (child_start child_end teen_start teen_end ya_start ya_end : Z)
    (country : string) : result string :=
  let api_key := getenv env "OPENAI_API_KEY" in
  match OpenAI env, api_key with
  | Some create, Some key =>
      if falsy api_key then ret PLACEHOLDER
      else
        let prompt := SYSTEM_PROMPT child_start child_end teen_start teen_end
                        ya_start ya_end country in
        try_except
          (r <- create key (mkRequest "gpt-3.5-turbo" [("system", prompt)] "0.7" 600) ;;
           first_content r)
          is_Exception
          (fun e => ret ("(Error communicating with OpenAI: " ++ exn_str e ++ ")"))
  | _, _ => ret PLACEHOLDER   (* OpenAI is None or not api_key *)
  end.

(** Sample environments, for running [generate_summary]. *)
Definition failing_provider : string -> request -> result response :=
  fun _ _ => Raise (OtherException "APIConnectionError" "Connection error.").

Definition silent_provider : string -> request -> result response :=
  fun _ _ => Ok [None].

Definition answering_provider : string -> request -> result response :=
  fun _ _ => Ok [Some "  Childhood (2000-2007) "].

Definition env_with (key : option string)
    (client : option (string -> request -> result response)) : environment :=
  mkEnv (fun name => if String.eqb name "OPENAI_API_KEY" then key else None)
        client.

(* ===================================================================== *)
(** ** The front end: what [app.py] does when the form is submitted *)
(* ===================================================================== *)

(** The two input modes of the form.  In the first the date widget supplies
    [dob_input] and [age_input] is [None]; in the second the number widget
    supplies [age_input] and [dob_input] is [None]. *)
Inductive form_input : Type :=
| DateOfBirth (dob_input : date)
| Age (age_input : Z).

(** The Streamlit calls of the handler, in the order they are made. *)
Inductive ui : Type :=
| Error (body : string)
| Subheader (body : string)
| Markdown (body : string)
| Spinner (text : string)
| TextInput (label value : string).

(** The bounds the two widgets are created with: [min_value] and
    [max_value] of [st.date_input] (1900-01-01 and [date.today()]) and of
    [st.number_input] (1 and 129). *)
Definition widget_range (today : date) (input : form_input) : bool :=
  match input with
  | DateOfBirth d =>
      valid_date d && date_leb (mkDate 1900 1 1) d && date_leb d today
  | Age a => (1 <=? a) && (a <=? 129)
  end.

(** The call of [parse_birthdate] inside the [try] block. *)
Definition resolve (today : date) (input : form_input) : result date :=
  match input with
  | DateOfBirth d => parse_birthdate today None (Some d)
  | Age a => parse_birthdate today (Some a) None
  end.

(** [country or "their country"] *)
Definition country_or_default (country : string) : string :=
  if falsy (Some country) then "their country" else country.

Definition period_line (title : string) (first last : date) : ui :=
  Markdown ("**" ++ title ++ ":** " ++ str_int (year first) ++ " – " ++
            str_int (year last) ++ " " ++
            "(" ++ decade_label (year first) ++ ")").

Definition share_id (birth : date) (timestamp : Z) : string :=
  "unique-id-" ++
  str_int (year birth) ++ "-" ++ str_int (month birth) ++ "-" ++
  str_int (day birth) ++ "-" ++ str_int timestamp.

(** The body of [if submitted:].  The result is the list of calls made and
    the exception that ended the run, if one did: a [ValueError] of the
    resolver is caught and shown; whatever the [else] block raises is not
    caught.  [timestamp] is [int(time.time())].  The dictionary [params] is
    built and never read, it is left out. *)
Definition on_submit (today : date) (env : environment) (timestamp : Z)
    (input : form_input) (country : string) : list ui * option exn :=
  match resolve today input with
  | Raise exc =>
      if is_ValueError exc then ([Error (exn_str exc)], None)
      else ([], Some exc)
  | Ok birth =>
      match compute_periods birth with
      | Raise e => ([], Some e)
      | Ok (child_start, child_end, teen_start, teen_end, ya_start, ya_end) =>
          let results :=
            [ Subheader "Results";
              period_line "Childhood years" child_start child_end;
              period_line "Teenage years" teen_start teen_end;
              period_line "Young adult years" ya_start ya_end;
              Markdown ("**Star sign:** " ++ get_star_sign birth);
              Markdown ("**Generation:** " ++ get_generation (year birth));
              Spinner "Generating cultural summary..." ] in
          match generate_summary env
                  (year child_start) (year child_end)
                  (year teen_start) (year teen_end)
                  (year ya_start) (year ya_end)
                  (country_or_default country) with
          | Raise e => (results, Some e)
          | Ok summary =>
              ((results ++
                [ Markdown "---";
                  Subheader "Cultural Snapshot";
                  Markdown summary;
                  Markdown "---";
                  Subheader "Share this link";
                  TextInput "Share ID" (share_id birth timestamp) ])%list,
               None)
          end
      end
  end.

Definition is_Error (u : ui) : bool :=
  match u with Error _ => true | _ => false end.

(** The input conditions under which the handler's call of the resolver
    is refused. *)
Definition rejected (today : date) (input : form_input) : bool :=
  match input with
  | DateOfBirth d => date_ltb today d
  | Age a => negb ((0 <? a) && (a <? 130))
  end.

(** The month after [m], December being followed by January. *)
Definition next_month (m : Z) : Z := if m =? 12 then 1 else m + 1.


Fixpoint has_dash (s : string) : bool :=
  match s with
  | EmptyString => false
  | String c s' => Ascii.eqb c "-" || has_dash s'
  end.

(* ===================================================================== *)
(** ** Vocabulary of the specification *)
(* ===================================================================== *)

(** The birth date with its year moved by [k], month and day kept. *)
Definition with_offset (b : date) (k : Z) : date :=
  mkDate (year b + k) (month b) (day b).

Definition is_feb29 (b : date) : bool := (month b =? 2) && (day b =? 29).

(** The four ways an input to the resolver is invalid, as the
    specification lists them. *)
Definition invalid_input (today : date) (age : option Z) (dob : option date)
    : Prop :=
  (dob <> None /\ age <> None) \/
  (dob = None /\ age = None) \/
  (exists d, dob = Some d /\ date_ltb today d = true) \/
  (exists a, age = Some a /\ ~ (0 < a < 130)).

(** The date the specification assigns to an age: today moved back by [a]
    years, one day earlier when that date does not exist. *)
Definition birth_from_age (today : date) (a : Z) : date :=
  let target := mkDate (year today - a) (month today) (day today) in
  if valid_date target then target
  else mkDate (year today - a) (month today) (day today - 1).

(* ===================================================================== *)
(** ** The date constructor *)
(* ===================================================================== *)

Ltac bool_to_Z :=
  repeat match goal with
  | H : _ && _ = true |- _ => apply andb_true_iff in H; destruct H
  | H : _ || _ = false |- _ => apply orb_false_iff in H; destruct H
  | H : negb _ = true |- _ => apply negb_true_iff in H
  | H : negb _ = false |- _ => apply negb_false_iff in H
  | H : (_ <=? _) = true |- _ => apply Z.leb_le in H
  | H : (_ <=? _) = false |- _ => apply Z.leb_gt in H
  | H : (_ <? _) = true |- _ => apply Z.ltb_lt in H
  | H : (_ <? _) = false |- _ => apply Z.ltb_ge in H
  | H : (_ =? _) = true |- _ => apply Z.eqb_eq in H
  | H : (_ =? _) = false |- _ => apply Z.eqb_neq in H
  end.

Lemma valid_date_fields b :
  valid_date b = true <->
  MINYEAR <= year b <= MAXYEAR /\ 1 <= month b <= 12 /\
  1 <= day b <= days_in_month (year b) (month b).
Proof.
  unfold valid_date. rewrite !andb_true_iff, !Z.leb_le. tauto.
Qed.

Lemma new_date_valid y m d :
  valid_date (mkDate y m d) = true -> new_date y m d = Ok (mkDate y m d).
Proof.
  unfold valid_date, new_date; cbn [year month day]. intros H. bool_to_Z.
  repeat match goal with H : _ <= _ |- _ => apply Z.leb_le in H; rewrite H end.
  reflexivity.
Qed.

Lemma new_date_invalid y m d :
  valid_date (mkDate y m d) = false ->
  exists msg, new_date y m d = Raise (ValueError msg).
Proof.
  unfold valid_date, new_date; cbn [year month day]. intros H.
  destruct (MINYEAR <=? y), (y <=? MAXYEAR); cbn [negb andb]; eauto.
  destruct (1 <=? m), (m <=? 12); cbn [negb andb]; eauto.
  destruct (1 <=? d), (d <=? days_in_month y m); cbn [negb andb]; eauto.
  discriminate.
Qed.

Lemma new_date_Ok y m d b :
  new_date y m d = Ok b -> b = mkDate y m d /\ valid_date b = true.
Proof.
  intros H. destruct (valid_date (mkDate y m d)) eqn:E.
  - rewrite (new_date_valid _ _ _ E) in H. inversion H; subst b. auto.
  - destruct (new_date_invalid _ _ _ E) as [msg Hm]. congruence.
Qed.

Lemma month_cases m :
  1 <= m <= 12 ->
  m = 1 \/ m = 2 \/ m = 3 \/ m = 4 \/ m = 5 \/ m = 6 \/
  m = 7 \/ m = 8 \/ m = 9 \/ m = 10 \/ m = 11 \/ m = 12.
Proof. lia. Qed.

Ltac each_month m H :=
  let C := fresh "C" in
  pose proof (month_cases m H) as C;
  repeat (destruct C as [C | C]); subst m.

(** Outside February the length of a month does not depend on the year;
    February has 28 or 29 days. *)
Lemma days_in_month_other y y' m : m <> 2 -> days_in_month y m = days_in_month y' m.
Proof.
  intros Hm. unfold days_in_month.
  destruct (Z.eqb_spec m 2); [contradiction | reflexivity].
Qed.

Lemma days_in_february y :
  days_in_month y 2 = if is_leap y then 29 else 28.
Proof. unfold days_in_month. cbn. destruct (is_leap y); reflexivity. Qed.

Lemma leap_plus_odd y k : is_leap y = true -> k mod 4 <> 0 -> is_leap (y + k) = false.
Proof.
  unfold is_leap. intros H Hk. apply andb_true_iff in H as [H _].
  apply Z.eqb_eq in H. apply andb_false_iff. left. apply Z.eqb_neq.
  rewrite Z.add_mod, H, Z.add_0_l, Z.mod_mod by lia. exact Hk.
Qed.

(** A date that is not 29 February exists in every year of the range. *)
Lemma with_offset_valid b k :
  valid_date b = true -> is_feb29 b = false ->
  MINYEAR <= year b + k <= MAXYEAR ->
  valid_date (with_offset b k) = true.
Proof.
  intros Hv Hf Hy. apply valid_date_fields in Hv as (Hy0 & Hm & Hd).
  apply valid_date_fields. unfold with_offset; cbn [year month day].
  repeat split; try lia.
  destruct (Z.eq_dec (month b) 2) as [E|E].
  - unfold is_feb29 in Hf. rewrite E in *. cbn in Hf.
    apply Z.eqb_neq in Hf. rewrite days_in_february in *.
    destruct (is_leap (year b)), (is_leap (year b + k)); lia.
  - rewrite (days_in_month_other _ (year b) _ E). lia.
Qed.

Lemma date_ltb_year a b : year a < year b -> date_ltb a b = true.
Proof.
  intros H. unfold date_ltb. apply Z.ltb_lt in H. rewrite H. reflexivity.
Qed.

(* ===================================================================== *)
(** ** Period calculator *)
(* ===================================================================== *)

Lemma feb29_leap b :
  valid_date b = true -> is_feb29 b = true ->
  month b = 2 /\ day b = 29 /\ is_leap (year b) = true.
Proof.
  intros Hv Hf. apply valid_date_fields in Hv as (_ & _ & Hd).
  unfold is_feb29 in Hf. bool_to_Z.
  repeat split; try assumption.
  replace (month b) with 2 in Hd by congruence. rewrite days_in_february in Hd.
  destruct (is_leap (year b)); [reflexivity | lia].
Qed.

Lemma feb29_offset_invalid b k :
  valid_date b = true -> is_feb29 b = true -> k mod 4 <> 0 ->
  valid_date (with_offset b k) = false.
Proof.
  intros Hv Hf Hk. destruct (feb29_leap b Hv Hf) as (Hm & Hd & Hl).
  destruct (valid_date (with_offset b k)) eqn:E; [|reflexivity].
  apply valid_date_fields in E as (_ & _ & E).
  unfold with_offset in E; cbn [year month day] in E.
  rewrite Hm, Hd, days_in_february, (leap_plus_odd _ _ Hl Hk) in E. lia.
Qed.

Example compute_periods_1995 :
  compute_periods (mkDate 1995 1 1) =
  Ok (mkDate 2000 1 1, mkDate 2007 1 1, mkDate 2008 1 1,
      mkDate 2014 1 1, mkDate 2015 1 1, mkDate 2024 1 1).
Proof. reflexivity. Qed.

Example compute_periods_2000_02_29 :
  compute_periods (mkDate 2000 2 29) =
  Raise (ValueError "day is out of range for month").
Proof. reflexivity. Qed.

(** The last year of the calendar bounds the offsets as well. *)
Example compute_periods_9990 :
  compute_periods (mkDate 9990 1 1) =
  Raise (ValueError "year 10002 is out of range").
Proof. reflexivity. Qed.

(** C1 (the code departs from the claim): for a birth date on 29 February
    the first offset year, birth year + 5, is never a leap year, so
    [birth.replace] raises [ValueError] and [compute_periods] returns no
    dates at all; the day is not clamped to 28 February. *)
Theorem compute_periods_leap_day_raises (b : date) :
  valid_date b = true -> is_feb29 b = true ->
  exists msg, compute_periods b = Raise (ValueError msg).
Proof.
  intros Hv Hf.
  assert (E : valid_date (with_offset b 5) = false)
    by (apply feb29_offset_invalid; [assumption .. | discriminate]).
  destruct (new_date_invalid _ _ _ E) as [msg Hm].
  exists msg. unfold compute_periods, replace_year. rewrite Hm. reflexivity.
Qed.

Lemma compute_periods_leap_day_raises_witness :
  valid_date (mkDate 2000 2 29) = true /\
  is_feb29 (mkDate 2000 2 29) = true /\
  exists msg, compute_periods (mkDate 2000 2 29) = Raise (ValueError msg).
Proof.
  split; [reflexivity | split; [reflexivity |]].
  apply (compute_periods_leap_day_raises (mkDate 2000 2 29)); reflexivity.
Defined.

(** C2, as stated, fails: 2000-02-29 is a date the resolver accepts, and
    [compute_periods] returns no six dates for it. *)
Lemma compute_periods_feb29_counterexample :
  valid_date (mkDate 2000 2 29) = true /\
  parse_birthdate (mkDate 2026 11 4) None (Some (mkDate 2000 2 29))
    = Ok (mkDate 2000 2 29) /\
  forall p : periods, compute_periods (mkDate 2000 2 29) <> Ok p.
Proof.
  split; [reflexivity | split; [reflexivity |]].
  intros p. rewrite compute_periods_2000_02_29. discriminate.
Qed.

(** C2 (amended): for every valid birth date other than a 29 February whose
    year + 29 is still a year of the calendar, [compute_periods] returns six
    dates, each the birth date with its year moved by 5, 12, 13, 19, 20 and
    29 and its month and day kept, and they are strictly increasing in the
    order child_start < child_end < teen_start < teen_end < ya_start <
    ya_end. *)
Theorem compute_periods_increasing (b : date) :
  valid_date b = true -> is_feb29 b = false -> year b + 29 <= MAXYEAR ->
  compute_periods b =
    Ok (with_offset b 5, with_offset b 12, with_offset b 13,
        with_offset b 19, with_offset b 20, with_offset b 29) /\
  date_ltb (with_offset b 5) (with_offset b 12) = true /\
  date_ltb (with_offset b 12) (with_offset b 13) = true /\
  date_ltb (with_offset b 13) (with_offset b 19) = true /\
  date_ltb (with_offset b 19) (with_offset b 20) = true /\
  date_ltb (with_offset b 20) (with_offset b 29) = true.
Proof.
  intros Hv Hf Hy.
  assert (Hk : forall k, 0 <= k <= 29 ->
            replace_year b (year b + k) = Ok (with_offset b k)).
  { intros k Hk. unfold replace_year. apply new_date_valid.
    apply (with_offset_valid b k Hv Hf).
    apply valid_date_fields in Hv as (Hy0 & _). lia. }
  split.
  - unfold compute_periods.
    rewrite !Hk by lia. reflexivity.
  - repeat split; apply date_ltb_year; cbn [with_offset year]; lia.
Qed.

Lemma compute_periods_increasing_witness :
  compute_periods (mkDate 1995 1 1) =
    Ok (with_offset (mkDate 1995 1 1) 5, with_offset (mkDate 1995 1 1) 12,
        with_offset (mkDate 1995 1 1) 13, with_offset (mkDate 1995 1 1) 19,
        with_offset (mkDate 1995 1 1) 20, with_offset (mkDate 1995 1 1) 29) /\
  date_ltb (with_offset (mkDate 1995 1 1) 5) (with_offset (mkDate 1995 1 1) 12) = true /\
  date_ltb (with_offset (mkDate 1995 1 1) 12) (with_offset (mkDate 1995 1 1) 13) = true /\
  date_ltb (with_offset (mkDate 1995 1 1) 13) (with_offset (mkDate 1995 1 1) 19) = true /\
  date_ltb (with_offset (mkDate 1995 1 1) 19) (with_offset (mkDate 1995 1 1) 20) = true /\
  date_ltb (with_offset (mkDate 1995 1 1) 20) (with_offset (mkDate 1995 1 1) 29) = true.
Proof.
  apply (compute_periods_increasing (mkDate 1995 1 1)).
  - reflexivity.
  - reflexivity.
  - unfold MAXYEAR; cbn; lia.
Defined.

(* ===================================================================== *)
(** ** Birth-date resolver *)
(* ===================================================================== *)

Section Resolver.

Variable today : date.

Lemma parse_birthdate_both a d :
  parse_birthdate today (Some a) (Some d) =
  Raise (ValueError "Please specify either age or date of birth, not both.").
Proof. reflexivity. Qed.

Lemma parse_birthdate_neither :
  parse_birthdate today None None =
  Raise (ValueError "Please specify either age or date of birth.").
Proof. reflexivity. Qed.

Lemma parse_birthdate_dob d :
  parse_birthdate today None (Some d) =
  if date_ltb today d
  then Raise (ValueError "Date of birth cannot be in the future.")
  else Ok d.
Proof. reflexivity. Qed.

Lemma parse_birthdate_bad_age a :
  ~ (0 < a < 130) ->
  parse_birthdate today (Some a) None =
  Raise (ValueError "Age must be between 1 and 129.").
Proof.
  intros H. unfold parse_birthdate.
  destruct (0 <? a) eqn:E1, (a <? 130) eqn:E2; cbn [andb negb];
    try reflexivity.
  bool_to_Z. lia.
Qed.

(** From here on the clock shows a real date late enough for the oldest
    accepted age: [today.year - 129] is still a year of the calendar. *)
Hypothesis today_valid : valid_date today = true.
Hypothesis today_year : 129 < year today.

(** The only date of [today]'s month and day that can be missing from
    another year is 29 February, and then the day before exists. *)
Lemma target_missing a :
  0 < a < 130 ->
  valid_date (mkDate (year today - a) (month today) (day today)) = false ->
  month today = 2 /\ day today = 29 /\ is_leap (year today - a) = false /\
  valid_date (mkDate (year today - a) (month today) (day today - 1)) = true.
Proof.
  intros Ha Hbad.
  destruct (is_feb29 today) eqn:Hf.
  - destruct (feb29_leap today today_valid Hf) as (Hm & Hd & _).
    pose proof today_valid as Hv.
    apply valid_date_fields in Hv as (Hy & _ & _). unfold MINYEAR, MAXYEAR in Hy.
    rewrite Hm, Hd in *.
    destruct (is_leap (year today - a)) eqn:Hl.
    + exfalso. assert (valid_date (mkDate (year today - a) 2 29) = true);
        [|congruence].
      apply valid_date_fields; cbn [year month day].
      rewrite days_in_february, Hl. unfold MINYEAR, MAXYEAR. lia.
    + repeat split. apply valid_date_fields; cbn [year month day].
      rewrite days_in_february, Hl. unfold MINYEAR, MAXYEAR. lia.
  - exfalso.
    assert (valid_date (with_offset today (- a)) = true).
    { apply with_offset_valid; try assumption.
      pose proof today_valid as Hv.
      apply valid_date_fields in Hv as (Hy & _ & _).
      unfold MINYEAR, MAXYEAR in *. lia. }
    unfold with_offset in H. rewrite Z.add_opp_r in H. congruence.
Qed.

Lemma parse_birthdate_age a :
  0 < a < 130 ->
  parse_birthdate today (Some a) None = Ok (birth_from_age today a).
Proof.
  intros Ha. unfold parse_birthdate, birth_from_age.
  assert (E1 : (0 <? a) = true) by (apply Z.ltb_lt; lia).
  assert (E2 : (a <? 130) = true) by (apply Z.ltb_lt; lia).
  rewrite E1, E2. cbn [andb negb].
  destruct (valid_date (mkDate (year today - a) (month today) (day today)))
    eqn:E.
  - rewrite (new_date_valid _ _ _ E). reflexivity.
  - destruct (new_date_invalid _ _ _ E) as [msg Hm]. rewrite Hm.
    cbn [try_except is_ValueError].
    apply new_date_valid. apply (target_missing a Ha E).
Qed.

End Resolver.

Example resolve_age_30 :
  parse_birthdate (mkDate 2026 11 4) (Some 30) None = Ok (mkDate 1996 11 4).
Proof. reflexivity. Qed.

Example resolve_age_leap_day :
  parse_birthdate (mkDate 2024 2 29) (Some 1) None = Ok (mkDate 2023 2 28).
Proof. reflexivity. Qed.

Example resolve_age_leap_day_kept :
  parse_birthdate (mkDate 2024 2 29) (Some 4) None = Ok (mkDate 2020 2 29).
Proof. reflexivity. Qed.

Example resolve_age_zero :
  parse_birthdate (mkDate 2026 11 4) (Some 0) None =
  Raise (ValueError "Age must be between 1 and 129.").
Proof. reflexivity. Qed.

(** C3: the resolver raises [ValueError] exactly when both inputs are
    supplied, neither is supplied, the date of birth is strictly after
    today, or the age is outside the open interval (0, 130); for every
    other input it returns a date.  ([today] is a real date whose year is
    at least 130, so that the oldest accepted age still names a year.) *)
Theorem parse_birthdate_error_iff (today : date) (age : option Z)
    (dob : option date) :
  valid_date today = true -> 129 < year today ->
  ((exists msg, parse_birthdate today age dob = Raise (ValueError msg)) <->
   invalid_input today age dob) /\
  (~ invalid_input today age dob ->
   exists b, parse_birthdate today age dob = Ok b) /\
  (forall e, parse_birthdate today age dob = Raise e ->
   invalid_input today age dob).
Proof.
  intros Hv Hy.
  assert (Hdec : invalid_input today age dob /\
                 (exists msg, parse_birthdate today age dob = Raise (ValueError msg))
               \/ ~ invalid_input today age dob /\
                 (exists b, parse_birthdate today age dob = Ok b)).
  { destruct dob as [d|], age as [a|].
    - left. split; [left; split; discriminate | rewrite parse_birthdate_both; eauto].
    - rewrite parse_birthdate_dob. destruct (date_ltb today d) eqn:E.
      + left. split; [| eauto]. right; right; left. eauto.
      + right. split; [| eauto].
        intros [[_ H] | [[H _] | [(d' & H & H') | (a & H & _)]]];
          try discriminate; try (now apply H).
        injection H as <-. congruence.
    - destruct (Z_lt_dec 0 a) as [H0|H0], (Z_lt_dec a 130) as [H1|H1].
      2-4: left; split;
        [ right; right; right; exists a; split; [reflexivity | lia]
        | rewrite parse_birthdate_bad_age by lia; eauto ].
      right. split.
      + intros [[H _] | [[_ H] | [(d' & H & _) | (a' & H & H')]]];
          try discriminate; try (now apply H).
        injection H as <-. lia.
      + rewrite (parse_birthdate_age today Hv Hy a) by lia. eauto.
    - left. split; [right; left; auto | rewrite parse_birthdate_neither; eauto]. }
  destruct Hdec as [[Hi [msg Hm]] | [Hn [b Hb]]].
  - split; [split; eauto | split; [contradiction | auto]].
  - split; [split; [intros [msg Hm]; congruence | contradiction] |].
    split; [eauto | intros e He; congruence].
Qed.

Lemma parse_birthdate_error_iff_witness :
  ((exists msg, parse_birthdate (mkDate 2024 2 29) (Some 1) None
                = Raise (ValueError msg)) <->
   invalid_input (mkDate 2024 2 29) (Some 1) None) /\
  (~ invalid_input (mkDate 2024 2 29) (Some 1) None ->
   exists b, parse_birthdate (mkDate 2024 2 29) (Some 1) None = Ok b) /\
  (forall e, parse_birthdate (mkDate 2024 2 29) (Some 1) None = Raise e ->
   invalid_input (mkDate 2024 2 29) (Some 1) None).
Proof.
  apply (parse_birthdate_error_iff (mkDate 2024 2 29) (Some 1) None).
  - reflexivity.
  - cbn; lia.
Defined.

(** C5, as stated, fails: the resolver has no lower bound.  An explicit date
    of birth before 1900-01-01 is returned unchanged, and the age 129 also
    resolves to a date before 1900. *)
Lemma parse_birthdate_before_1900_counterexample :
  parse_birthdate (mkDate 2026 11 4) None (Some (mkDate 1899 12 31))
    = Ok (mkDate 1899 12 31) /\
  valid_date (mkDate 1899 12 31) = true /\
  date_ltb (mkDate 1899 12 31) (mkDate 1900 1 1) = true /\
  parse_birthdate (mkDate 2026 11 4) (Some 129) None = Ok (mkDate 1897 11 4) /\
  date_ltb (mkDate 1897 11 4) (mkDate 1900 1 1) = true.
Proof. repeat split. Qed.

(** C5 (amended): every date the resolver returns is not after today; the
    resolver sets no earliest date. *)
Theorem parse_birthdate_not_future (today : date) (age : option Z)
    (dob : option date) (b : date) :
  parse_birthdate today age dob = Ok b -> date_leb b today = true.
Proof.
  unfold date_leb. destruct dob as [d|], age as [a|]; try discriminate.
  - rewrite parse_birthdate_dob. destruct (date_ltb today d) eqn:E;
      [discriminate |]. intros H. injection H as <-. rewrite E. reflexivity.
  - unfold parse_birthdate.
    destruct (0 <? a) eqn:E1, (a <? 130) eqn:E2; cbn [andb negb];
      try discriminate.
    bool_to_Z. intros H.
    assert (Hy : year b = year today - a).
    { destruct (new_date (year today - a) (month today) (day today)) as [b'|e]
        eqn:E; cbn [try_except] in H.
      - injection H as <-. apply new_date_Ok in E as [-> _]. reflexivity.
      - destruct (is_ValueError e); [|discriminate].
        apply new_date_Ok in H as [-> _]. reflexivity. }
    assert (Hlt : date_ltb b today = true) by (apply date_ltb_year; lia).
    unfold date_ltb in *. rewrite Hy in *.
    replace (year today <? year today - a) with false by (symmetry; apply Z.ltb_ge; lia).
    replace (year today =? year today - a) with false by (symmetry; apply Z.eqb_neq; lia).
    reflexivity.
Qed.

Lemma parse_birthdate_not_future_witness :
  date_leb (mkDate 1995 1 1) (mkDate 2026 11 4) = true.
Proof.
  apply (parse_birthdate_not_future (mkDate 2026 11 4) None
           (Some (mkDate 1995 1 1)) (mkDate 1995 1 1)).
  reflexivity.
Defined.

(** C6: for every age [a] in 1..129 the resolver returns the date
    (today.year - a, today.month, today.day); that date is missing exactly
    when today is 29 February and the target year is not a leap year, and
    then the result is (today.year - a, today.month, today.day - 1).  In
    both cases the year is today.year - a and the month is today's. *)
Theorem parse_birthdate_from_age (today : date) (a : Z) :
  valid_date today = true -> 129 < year today -> 0 < a < 130 ->
  let target := mkDate (year today - a) (month today) (day today) in
  let missing := is_feb29 today && negb (is_leap (year today - a)) in
  valid_date target = negb missing /\
  parse_birthdate today (Some a) None =
    Ok (if missing
        then mkDate (year today - a) (month today) (day today - 1)
        else target) /\
  exists b, parse_birthdate today (Some a) None = Ok b /\
            valid_date b = true /\
            year b = year today - a /\ month b = month today.
Proof.
  intros Hv Hy Ha target missing.
  assert (Hmiss : valid_date target = negb missing).
  { subst target missing.
    destruct (valid_date (mkDate (year today - a) (month today) (day today)))
      eqn:E.
    - symmetry. apply negb_true_iff. apply andb_false_iff.
      destruct (is_feb29 today) eqn:Hf; [right | now left].
      apply negb_false_iff.
      destruct (feb29_leap today Hv Hf) as (Hm & Hd & _).
      apply valid_date_fields in E as (_ & _ & E); cbn [year month day] in E.
      rewrite Hm, Hd, days_in_february in E.
      destruct (is_leap (year today - a)); [reflexivity | lia].
    - destruct (target_missing today Hv Hy a Ha E) as (Hm & Hd & Hl & _).
      unfold is_feb29. rewrite Hm, Hd, Hl. reflexivity. }
  assert (Hres : parse_birthdate today (Some a) None =
    Ok (if missing
        then mkDate (year today - a) (month today) (day today - 1)
        else target)).
  { rewrite (parse_birthdate_age today Hv Hy a Ha). unfold birth_from_age.
    fold target. rewrite Hmiss. destruct missing; reflexivity. }
  split; [exact Hmiss | split; [exact Hres |]].
  eexists. split; [exact Hres |].
  destruct missing; cbn [negb] in Hmiss.
  - repeat split. subst target.
    apply (target_missing today Hv Hy a Ha Hmiss).
  - repeat split. exact Hmiss.
Qed.

Lemma parse_birthdate_from_age_witness :
  parse_birthdate (mkDate 2024 2 29) (Some 1) None = Ok (mkDate 2023 2 28).
Proof.
  apply (parse_birthdate_from_age (mkDate 2024 2 29) 1); cbn; lia || reflexivity.
Defined.

(** C7: an explicit date of birth that is not after today is returned
    unchanged, and one that is after today makes the resolver raise
    [ValueError]; every date falls under exactly one of the two cases. *)
Theorem parse_birthdate_dob_identity (today d : date) :
  (date_leb d today = true -> parse_birthdate today None (Some d) = Ok d) /\
  (date_ltb today d = true ->
   parse_birthdate today None (Some d) =
   Raise (ValueError "Date of birth cannot be in the future.")) /\
  date_leb d today = negb (date_ltb today d).
Proof.
  rewrite parse_birthdate_dob. unfold date_leb.
  destruct (date_ltb today d); repeat split; intros; try discriminate;
    reflexivity.
Qed.

Lemma parse_birthdate_dob_identity_witness :
  parse_birthdate (mkDate 2026 11 4) None (Some (mkDate 2026 11 4))
    = Ok (mkDate 2026 11 4) /\
  parse_birthdate (mkDate 2026 11 4) None (Some (mkDate 2026 11 5))
    = Raise (ValueError "Date of birth cannot be in the future.").
Proof.
  split.
  - apply (proj1 (parse_birthdate_dob_identity (mkDate 2026 11 4) (mkDate 2026 11 4))).
    reflexivity.
  - apply (proj1 (proj2 (parse_birthdate_dob_identity (mkDate 2026 11 4) (mkDate 2026 11 5)))).
    reflexivity.
Defined.

(* ===================================================================== *)
(** ** Classifiers *)
(* ===================================================================== *)

Example decade_label_1995 : decade_label 1995 = "1990s".
Proof. reflexivity. Qed.

Example decade_label_2004 : decade_label 2004 = "2000s".
Proof. reflexivity. Qed.

Example decade_label_negative : decade_label (-5) = "-10s".
Proof. reflexivity. Qed.

Example decade_label_far_future : decade_label 123456 = "123450s".
Proof. reflexivity. Qed.


Example get_generation_1990 : get_generation 1990 = "Millennial".
Proof. reflexivity. Qed.

Example get_generation_1920 : get_generation 1920 = "Unknown".
Proof. reflexivity. Qed.

Example get_generation_2015 : get_generation 2015 = "Generation Alpha".
Proof. reflexivity. Qed.

Ltac decide_comparisons :=
  repeat match goal with
  | |- context [?a >=? ?b] => rewrite (Z.geb_leb a b)
  | |- context [?a <=? ?b] =>
      first [ rewrite (proj2 (Z.leb_le a b)) by lia
            | rewrite (proj2 (Z.leb_gt a b)) by lia ]
  end; cbn [andb orb negb].

(** The seven branches of [get_generation], by the year that takes each. *)
Lemma get_generation_cases (y : Z) :
  (y < 1928 /\ get_generation y = "Unknown") \/
  (1928 <= y <= 1945 /\ get_generation y = "Silent Generation") \/
  (1946 <= y <= 1964 /\ get_generation y = "Baby Boomer") \/
  (1965 <= y <= 1980 /\ get_generation y = "Generation X") \/
  (1981 <= y <= 1996 /\ get_generation y = "Millennial") \/
  (1997 <= y <= 2012 /\ get_generation y = "Generation Z") \/
  (2013 <= y /\ get_generation y = "Generation Alpha").
Proof.
  unfold get_generation.
  destruct (Z_lt_dec y 1928); [left | right].
  { split; [assumption | decide_comparisons; reflexivity]. }
  destruct (Z_le_dec y 1945); [left | right].
  { split; [lia | decide_comparisons; reflexivity]. }
  destruct (Z_le_dec y 1964); [left | right].
  { split; [lia | decide_comparisons; reflexivity]. }
  destruct (Z_le_dec y 1980); [left | right].
  { split; [lia | decide_comparisons; reflexivity]. }
  destruct (Z_le_dec y 1996); [left | right].
  { split; [lia | decide_comparisons; reflexivity]. }
  destruct (Z_le_dec y 2012); [left | right].
  { split; [lia | decide_comparisons; reflexivity]. }
  split; [lia | decide_comparisons; reflexivity].
Qed.

(** C8: [get_generation] returns "Unknown" if and only if the year is before
    1928, and from 1928 upward each year falls in exactly one of the
    contiguous ranges 1928-1945 Silent Generation, 1946-1964 Baby Boomer,
    1965-1980 Generation X, 1981-1996 Millennial, 1997-2012 Generation Z,
    2013 onward Generation Alpha. *)
Theorem get_generation_ranges (y : Z) :
  (get_generation y = "Unknown" <-> y < 1928) /\
  (get_generation y = "Silent Generation" <-> 1928 <= y <= 1945) /\
  (get_generation y = "Baby Boomer" <-> 1946 <= y <= 1964) /\
  (get_generation y = "Generation X" <-> 1965 <= y <= 1980) /\
  (get_generation y = "Millennial" <-> 1981 <= y <= 1996) /\
  (get_generation y = "Generation Z" <-> 1997 <= y <= 2012) /\
  (get_generation y = "Generation Alpha" <-> 2013 <= y) /\
  get_generation 1990 = "Millennial" /\
  get_generation 1920 = "Unknown" /\
  get_generation 2015 = "Generation Alpha".
Proof.
  destruct (get_generation_cases y)
    as [[H E] | [[H E] | [[H E] | [[H E] | [[H E] | [[H E] | [H E]]]]]]];
    rewrite E;
    repeat match goal with |- _ /\ _ => split end;
    try reflexivity;
    (split; intros; [first [discriminate | lia] | first [reflexivity | lia]]).
Qed.

Example star_sign_capricorn : get_star_sign (mkDate 2000 1 1) = "Capricorn".
Proof. reflexivity. Qed.

Example star_sign_aries : get_star_sign (mkDate 2000 3 21) = "Aries".
Proof. reflexivity. Qed.

Example star_sign_no_month : get_star_sign (mkDate 2000 13 1) = "Unknown".
Proof. reflexivity. Qed.

(** [get_star_sign] reads the month and the day only. *)
Lemma get_star_sign_year (y y' m d : Z) :
  get_star_sign (mkDate y m d) = get_star_sign (mkDate y' m d).
Proof. reflexivity. Qed.

Ltac split_day d :=
  repeat match goal with
  | |- context [d >=? ?k] => rewrite (Z.geb_leb d k)
  | |- context [d <=? ?k] => destruct (Z.leb_spec d k)
  | |- context [?k <=? d] => destruct (Z.leb_spec k d)
  end.

(** In each of the twelve months, whatever the day number, exactly one
    range matches, and it is the range of the sign returned. *)
Lemma one_sign_per_day (y m d : Z) :
  1 <= m <= 12 ->
  matching_signs m d = [get_star_sign (mkDate y m d)] /\
  get_star_sign (mkDate y m d) <> "Unknown".
Proof.
  intros Hm. unfold matching_signs, sign_ranges, get_star_sign.
  cbn [year month day].
  each_month m Hm; cbn [Z.eqb Pos.eqb andb orb filter map fst snd];
    split_day d; cbn [andb orb filter map fst snd];
    first [lia | split; [reflexivity | discriminate]].
Qed.

(** No pair of numbers, a calendar day or not, lies in two ranges. *)
Lemma sign_ranges_disjoint (m d : Z) : (length (matching_signs m d) <= 1)%nat.
Proof.
  destruct (Z_le_dec 1 m) as [H1|H1]; [destruct (Z_le_dec m 12) as [H2|H2] |].
  - destruct (one_sign_per_day 0 m d (conj H1 H2)) as [-> _]. cbn. lia.
  - unfold matching_signs, sign_ranges. cbn [filter snd].
    repeat match goal with
    | |- context [m =? ?k] => rewrite (proj2 (Z.eqb_neq m k)) by lia
    end. cbn. lia.
  - unfold matching_signs, sign_ranges. cbn [filter snd].
    repeat match goal with
    | |- context [m =? ?k] => rewrite (proj2 (Z.eqb_neq m k)) by lia
    end. cbn. lia.
Qed.

(** C4: for every valid date exactly one of the twelve ranges contains its
    (month, day), [get_star_sign] returns the sign of that range and never
    "Unknown", and the result is the same in every year; no two ranges
    overlap anywhere. *)
Theorem star_sign_exactly_one (b : date) :
  valid_date b = true ->
  matching_signs (month b) (day b) = [get_star_sign b] /\
  get_star_sign b <> "Unknown" /\
  (forall y, get_star_sign (mkDate y (month b) (day b)) = get_star_sign b) /\
  (forall m d, (length (matching_signs m d) <= 1)%nat).
Proof.
  intros Hv. apply valid_date_fields in Hv as (_ & Hm & _).
  destruct b as [y m d]; cbn [year month day] in *.
  destruct (one_sign_per_day y m d Hm) as [H1 H2].
  split; [exact H1 | split; [exact H2 | split]].
  - intros y'. apply get_star_sign_year.
  - apply sign_ranges_disjoint.
Qed.

Lemma star_sign_exactly_one_witness :
  matching_signs 2 29 = [get_star_sign (mkDate 2000 2 29)] /\
  get_star_sign (mkDate 2000 2 29) <> "Unknown" /\
  (forall y, get_star_sign (mkDate y 2 29) = get_star_sign (mkDate 2000 2 29)) /\
  (forall m d, (length (matching_signs m d) <= 1)%nat).
Proof.
  apply (star_sign_exactly_one (mkDate 2000 2 29)). reflexivity.
Defined.

(* ===================================================================== *)
(** ** Summary generator *)
(* ===================================================================== *)

Section Summary.

Variable env : environment.
Variables child_start child_end teen_start teen_end ya_start ya_end : Z.
Variable country : string.

Let summary : result string :=
  generate_summary env child_start child_end teen_start teen_end
    ya_start ya_end country.





End Summary.

Example summary_no_key :
  generate_summary (env_with None (Some answering_provider))
    2000 2007 2008 2014 2015 2024 "their country" = Ok PLACEHOLDER.
Proof. reflexivity. Qed.

Example summary_empty_key :
  generate_summary (env_with (Some "") (Some answering_provider))
    2000 2007 2008 2014 2015 2024 "their country" = Ok PLACEHOLDER.
Proof. reflexivity. Qed.

Example summary_provider_down :
  generate_summary (env_with (Some "sk-test") (Some failing_provider))
    2000 2007 2008 2014 2015 2024 "their country"
  = Ok "(Error communicating with OpenAI: Connection error.)".
Proof. reflexivity. Qed.

Example summary_no_content :
  generate_summary (env_with (Some "sk-test") (Some silent_provider))
    2000 2007 2008 2014 2015 2024 "their country"
  = Ok "(Error communicating with OpenAI: 'NoneType' object has no attribute 'strip')".
Proof. reflexivity. Qed.

Example summary_answer :
  generate_summary (env_with (Some "sk-test") (Some answering_provider))
    2000 2007 2008 2014 2015 2024 "their country"
  = Ok "Childhood (2000-2007)".
Proof. reflexivity. Qed.



(* ===================================================================== *)
(** ** Further properties of the period calculator *)
(* ===================================================================== *)

(** When [compute_periods] returns, each of its six calls of [replace]
    returned. *)
Lemma compute_periods_Ok_inv (b c1 c2 c3 c4 c5 c6 : date) :
  compute_periods b = Ok (c1, c2, c3, c4, c5, c6) ->
  replace_year b (year b + 5) = Ok c1 /\
  replace_year b (year b + 12) = Ok c2 /\
  replace_year b (year b + 13) = Ok c3 /\
  replace_year b (year b + 19) = Ok c4 /\
  replace_year b (year b + 20) = Ok c5 /\
  replace_year b (year b + 29) = Ok c6.
Proof.
  unfold compute_periods.
  destruct (replace_year b (year b + 5)) as [d1|]; [|discriminate].
  destruct (replace_year b (year b + 12)) as [d2|]; [|discriminate].
  destruct (replace_year b (year b + 13)) as [d3|]; [|discriminate].
  destruct (replace_year b (year b + 19)) as [d4|]; [|discriminate].
  destruct (replace_year b (year b + 20)) as [d5|]; [|discriminate].
  destruct (replace_year b (year b + 29)) as [d6|]; [|discriminate].
  cbn [bind ret]. intros H. inversion H. subst. repeat split.
Qed.

Lemma replace_year_Ok (b c : date) (y : Z) :
  replace_year b y = Ok c ->
  c = mkDate y (month b) (day b) /\ valid_date c = true.
Proof. unfold replace_year. apply new_date_Ok. Qed.

(** Whatever [compute_periods] raises is a [ValueError]. *)
Lemma compute_periods_raises_ValueError (b : date) (e : exn) :
  compute_periods b = Raise e -> is_ValueError e = true.
Proof.
  assert (H : forall y, (exists c, replace_year b y = Ok c) \/
                        (exists msg, replace_year b y = Raise (ValueError msg))).
  { intros y. unfold replace_year.
    destruct (valid_date (mkDate y (month b) (day b))) eqn:E.
    - left. eexists. apply new_date_valid, E.
    - right. apply new_date_invalid, E. }
  unfold compute_periods.
  destruct (H (year b + 5)) as [[c1 ->] | [m ->]];
    [| cbn; intros X; inversion X; reflexivity].
  destruct (H (year b + 12)) as [[c2 ->] | [m ->]];
    [| cbn; intros X; inversion X; reflexivity].
  destruct (H (year b + 13)) as [[c3 ->] | [m ->]];
    [| cbn; intros X; inversion X; reflexivity].
  destruct (H (year b + 19)) as [[c4 ->] | [m ->]];
    [| cbn; intros X; inversion X; reflexivity].
  destruct (H (year b + 20)) as [[c5 ->] | [m ->]];
    [| cbn; intros X; inversion X; reflexivity].
  destruct (H (year b + 29)) as [[c6 ->] | [m ->]];
    [| cbn; intros X; inversion X; reflexivity].
  cbn. discriminate.
Qed.

Lemma compute_periods_returns_when (b : date) :
  valid_date b = true ->
  (returns (compute_periods b) = true <->
   is_feb29 b = false /\ year b + 29 <= MAXYEAR).
Proof.
  intros Hv. split.
  - destruct (compute_periods b) as [[[[[[c1 c2] c3] c4] c5] c6]|] eqn:E;
      [intros _ | discriminate].
    apply compute_periods_Ok_inv in E as (H1 & _ & _ & _ & _ & H6).
    apply replace_year_Ok in H1 as [-> V1], H6 as [-> V6]. split.
    + destruct (is_feb29 b) eqn:Hf; [|reflexivity].
      assert (X : valid_date (with_offset b 5) = false)
        by (apply feb29_offset_invalid; [assumption .. | discriminate]).
      unfold with_offset in X. congruence.
    + apply valid_date_fields in V6 as (V6 & _). cbn [year] in V6. lia.
  - intros [Hf Hy].
    assert (Hk : forall k, 0 <= k <= 29 ->
              replace_year b (year b + k) = Ok (with_offset b k)).
    { intros k Hk. unfold replace_year. apply new_date_valid.
      apply (with_offset_valid b k Hv Hf).
      apply valid_date_fields in Hv as (Hy0 & _). lia. }
    unfold compute_periods. rewrite !Hk by lia. reflexivity.
Qed.

(** X1: for a valid birth date, [compute_periods] returns exactly when the
    date is not a 29 February and its year + 29 is at most 9999; in every
    other case it raises, and what it raises is a [ValueError]. *)
Theorem compute_periods_returns_iff (b : date) :
  valid_date b = true ->
  (returns (compute_periods b) = true <->
   is_feb29 b = false /\ year b + 29 <= MAXYEAR) /\
  (forall e, compute_periods b = Raise e -> exists msg, e = ValueError msg).
Proof.
  intros Hv. split; [apply compute_periods_returns_when, Hv |].
  intros e He. apply compute_periods_raises_ValueError in He.
  destruct e; try discriminate. eauto.
Qed.

Lemma compute_periods_returns_iff_witness :
  returns (compute_periods (mkDate 1996 2 28)) = true.
Proof.
  apply (proj1 (compute_periods_returns_iff (mkDate 1996 2 28) eq_refl)).
  split; [reflexivity | unfold MAXYEAR; cbn; lia].
Defined.

(** X2: whenever [compute_periods] returns, for any argument, the six
    results are valid dates with the month and day of the birth date, the
    first lies strictly after the birth date, and the three periods are
    adjacent in years: the teenage period starts the year after childhood
    ends and the young-adult period the year after the teenage one ends;
    they span 7, 6 and 9 years. *)
Theorem compute_periods_adjacent (b c1 c2 c3 c4 c5 c6 : date) :
  compute_periods b = Ok (c1, c2, c3, c4, c5, c6) ->
  Forall (fun c => valid_date c = true /\ month c = month b /\ day c = day b)
    [c1; c2; c3; c4; c5; c6] /\
  date_ltb b c1 = true /\
  year c3 = year c2 + 1 /\ year c5 = year c4 + 1 /\
  year c2 - year c1 = 7 /\ year c4 - year c3 = 6 /\ year c6 - year c5 = 9.
Proof.
  intros H.
  apply compute_periods_Ok_inv in H as (H1 & H2 & H3 & H4 & H5 & H6).
  apply replace_year_Ok in H1 as [E1 V1], H2 as [E2 V2], H3 as [E3 V3],
    H4 as [E4 V4], H5 as [E5 V5], H6 as [E6 V6].
  split.
  - repeat constructor; try assumption; subst; reflexivity.
  - subst; cbn [year]. split; [apply date_ltb_year; cbn [year]; lia |].
    repeat split; lia.
Qed.

Lemma compute_periods_adjacent_witness :
  year (mkDate 2008 1 1) = year (mkDate 2007 1 1) + 1.
Proof.
  apply (compute_periods_adjacent (mkDate 1995 1 1)
           (mkDate 2000 1 1) (mkDate 2007 1 1) (mkDate 2008 1 1)
           (mkDate 2014 1 1) (mkDate 2015 1 1) (mkDate 2024 1 1)).
  reflexivity.
Defined.

(* ===================================================================== *)
(** ** Further properties of the resolver *)
(* ===================================================================== *)

(** The two ways the age branch can return: from the first construction or
    from the fallback. *)
Lemma parse_birthdate_age_Ok (today : date) (a : Z) (b : date) :
  parse_birthdate today (Some a) None = Ok b ->
  0 < a < 130 /\ valid_date b = true /\
  year b = year today - a /\ month b = month today /\
  (day b = day today \/ day b = day today - 1).
Proof.
  unfold parse_birthdate.
  destruct (0 <? a) eqn:E1, (a <? 130) eqn:E2; cbn [andb negb];
    try discriminate.
  bool_to_Z. intros H. split; [lia |].
  destruct (new_date (year today - a) (month today) (day today)) as [b'|e]
    eqn:E; cbn [try_except] in H.
  - inversion H; subst b'. apply new_date_Ok in E as [-> V].
    cbn [year month day]. auto.
  - destruct (is_ValueError e); [|discriminate].
    apply new_date_Ok in H as [-> V]. cbn [year month day]. auto.
Qed.

Lemma parse_birthdate_raises_ValueError (today : date) (age : option Z)
    (dob : option date) (e : exn) :
  parse_birthdate today age dob = Raise e -> is_ValueError e = true.
Proof.
  unfold parse_birthdate. destruct dob as [d|], age as [a|].
  - intros H; inversion H; reflexivity.
  - destruct (date_gtb d today); intros H; inversion H; reflexivity.
  - destruct (negb ((0 <? a) && (a <? 130)));
      [intros H; inversion H; reflexivity |].
    destruct (valid_date (mkDate (year today - a) (month today) (day today)))
      eqn:E.
    + rewrite (new_date_valid _ _ _ E). discriminate.
    + destruct (new_date_invalid _ _ _ E) as [msg ->].
      cbn [try_except is_ValueError].
      destruct (valid_date (mkDate (year today - a) (month today) (day today - 1)))
        eqn:E'.
      * rewrite (new_date_valid _ _ _ E'). discriminate.
      * destruct (new_date_invalid _ _ _ E') as [msg' ->].
        intros H; inversion H; reflexivity.
  - intros H; inversion H; reflexivity.
Qed.

(** X3: the resolver returns dates only.  Given a date of birth that is a
    date (or none), whatever it returns is a valid calendar date: the day
    taken back by the 29 February fallback never leaves the month. *)
Theorem parse_birthdate_valid (today : date) (age : option Z)
    (dob : option date) (b : date) :
  (forall d, dob = Some d -> valid_date d = true) ->
  parse_birthdate today age dob = Ok b ->
  valid_date b = true.
Proof.
  intros Hd H. destruct dob as [d|], age as [a|]; try discriminate.
  - rewrite parse_birthdate_dob in H.
    destruct (date_ltb today d); [discriminate |].
    inversion H; subst b. apply Hd. reflexivity.
  - apply parse_birthdate_age_Ok in H. tauto.
Qed.

Lemma parse_birthdate_valid_witness :
  valid_date (mkDate 2023 2 28) = true.
Proof.
  apply (parse_birthdate_valid (mkDate 2024 2 29) (Some 1) None).
  - intros d H. discriminate H.
  - reflexivity.
Defined.

(** X4: resolving from an age is strictly decreasing in the age.  For two
    accepted ages a < a', both calls return, the date for a' lies strictly
    before the date for a, and both lie strictly before today. *)
Theorem parse_birthdate_age_decreasing (today : date) (a a' : Z) :
  valid_date today = true -> 129 < year today ->
  0 < a -> a < a' -> a' < 130 ->
  exists b b',
    parse_birthdate today (Some a) None = Ok b /\
    parse_birthdate today (Some a') None = Ok b' /\
    date_ltb b' b = true /\ date_ltb b today = true.
Proof.
  intros Hv Hy H0 H1 H2.
  exists (birth_from_age today a), (birth_from_age today a').
  rewrite !(parse_birthdate_age today Hv Hy) by lia.
  repeat split.
  - pose proof (parse_birthdate_age today Hv Hy a ltac:(lia)) as Ea.
    pose proof (parse_birthdate_age today Hv Hy a' ltac:(lia)) as Ea'.
    apply parse_birthdate_age_Ok in Ea as (_ & _ & Ya & _).
    apply parse_birthdate_age_Ok in Ea' as (_ & _ & Ya' & _).
    apply date_ltb_year. lia.
  - pose proof (parse_birthdate_age today Hv Hy a ltac:(lia)) as Ea.
    apply parse_birthdate_age_Ok in Ea as (_ & _ & Ya & _).
    apply date_ltb_year. lia.
Qed.

Lemma parse_birthdate_age_decreasing_witness :
  exists b b',
    parse_birthdate (mkDate 2024 2 29) (Some 1) None = Ok b /\
    parse_birthdate (mkDate 2024 2 29) (Some 4) None = Ok b' /\
    date_ltb b' b = true /\ date_ltb b (mkDate 2024 2 29) = true.
Proof.
  apply (parse_birthdate_age_decreasing (mkDate 2024 2 29) 1 4);
    cbn; lia || reflexivity.
Defined.

(* ===================================================================== *)
(** ** Further properties of the classifiers *)
(* ===================================================================== *)

(** [str] of an integer determines the integer. *)
Lemma to_int_normal (n : Z) :
  Z.to_int n <> Decimal.Pos Decimal.Nil /\ Z.to_int n <> Decimal.Neg Decimal.Nil.
Proof.
  assert (E : Z.to_int n = Decimal.norm (Z.to_int n)).
  { rewrite <- (DecimalZ.to_of (Z.to_int n)), DecimalZ.of_to. reflexivity. }
  rewrite E. destruct (Z.to_int n) as [d|d]; cbn [Decimal.norm].
  - split; [| discriminate].
    intros H. inversion H as [H']. exact (DecimalFacts.unorm_nonnil d H').
  - destruct (Decimal.nzhead d) eqn:Hd; split; try discriminate.
Qed.

Lemma str_int_inj (a b : Z) : str_int a = str_int b -> a = b.
Proof.
  unfold str_int. intros H.
  destruct (to_int_normal a) as [A1 A2], (to_int_normal b) as [B1 B2].
  pose proof (NilZero.isi _ A1 A2) as Ia.
  pose proof (NilZero.isi _ B1 B2) as Ib.
  rewrite H in Ia. rewrite Ia in Ib. inversion Ib as [Hab].
  apply DecimalZ.to_int_inj, Hab.
Qed.







(** X7: the years of one generation form an interval: a year between two
    years of the same label has that label too. *)
Theorem get_generation_interval (y1 y2 y3 : Z) :
  y1 <= y2 -> y2 <= y3 ->
  get_generation y1 = get_generation y3 ->
  get_generation y2 = get_generation y1.
Proof.
  intros H12 H23.
  destruct (get_generation_cases y1)
    as [[A1 E1] | [[A1 E1] | [[A1 E1] | [[A1 E1] | [[A1 E1] | [[A1 E1] | [A1 E1]]]]]]];
  destruct (get_generation_cases y3)
    as [[A3 E3] | [[A3 E3] | [[A3 E3] | [[A3 E3] | [[A3 E3] | [[A3 E3] | [A3 E3]]]]]]];
  rewrite E1, E3; intros E; try discriminate E;
  destruct (get_generation_cases y2)
    as [[A2 E2] | [[A2 E2] | [[A2 E2] | [[A2 E2] | [[A2 E2] | [[A2 E2] | [A2 E2]]]]]]];
  rewrite E2; first [reflexivity | lia].
Qed.

Lemma get_generation_interval_witness :
  get_generation 1990 = get_generation 1981.
Proof.
  apply (get_generation_interval 1981 1990 1996); [lia | lia | reflexivity].
Defined.

(** X8: for any month and day numbers, a date or not, [get_star_sign]
    returns "Unknown" exactly when the month is not one of 1..12; the day
    number never leads to the fallback. *)
Theorem get_star_sign_unknown_iff (b : date) :
  get_star_sign b = "Unknown" <-> ~ (1 <= month b <= 12).
Proof.
  destruct b as [y m d]; cbn [month]. split.
  - intros H Hm. destruct (one_sign_per_day y m d Hm) as [_ Hn]. contradiction.
  - intros Hm. unfold get_star_sign; cbn [month day].
    repeat match goal with
    | |- context [m =? ?k] => rewrite (proj2 (Z.eqb_neq m k)) by lia
    end. reflexivity.
Qed.

(* ===================================================================== *)
(** ** Further properties of the summary generator *)
(* ===================================================================== *)




(* ===================================================================== *)
(** ** The submit handler *)
(* ===================================================================== *)


Lemma resolve_raises_ValueError (today : date) (input : form_input) (e : exn) :
  resolve today input = Raise e -> is_ValueError e = true.
Proof. destruct input; apply parse_birthdate_raises_ValueError. Qed.


Lemma resolve_rejected (today : date) (input : form_input) :
  valid_date today = true -> 129 < year today ->
  if rejected today input
  then exists msg, resolve today input = Raise (ValueError msg)
  else exists birth, resolve today input = Ok birth.
Proof.
  intros Hv Hy. destruct input as [d|a]; cbn [rejected resolve].
  - rewrite parse_birthdate_dob. destruct (date_ltb today d); eauto.
  - destruct (0 <? a) eqn:E1, (a <? 130) eqn:E2; cbn [andb negb];
      bool_to_Z;
      try (rewrite parse_birthdate_bad_age by lia; eauto).
    rewrite (parse_birthdate_age today Hv Hy a) by lia. eauto.
Qed.

(** After the resolver has returned, the handler makes no call of
    [st.error]. *)
Lemma on_submit_no_error (today : date) (env : environment) (timestamp : Z)
    (input : form_input) (country : string) (birth : date) :
  resolve today input = Ok birth ->
  existsb is_Error (fst (on_submit today env timestamp input country)) = false.
Proof.
  intros H. unfold on_submit. rewrite H.
  destruct (compute_periods birth) as [[[[[[c1 c2] c3] c4] c5] c6]|e];
    [| reflexivity].
  destruct (generate_summary env _ _ _ _ _ _ _); reflexivity.
Qed.

(** X10: the handler shows the error box, and then nothing else, exactly
    when the date of birth is after today or the age is outside 1..129; it
    ends without an exception in that case.  For every other input no error
    box is shown, in particular for every input the two widgets allow. *)
Theorem on_submit_error_box (today : date) (env : environment)
    (timestamp : Z) (input : form_input) (country : string) :
  valid_date today = true -> 129 < year today ->
  let out := on_submit today env timestamp input country in
  ((exists msg, out = ([Error msg], None)) <-> rejected today input = true) /\
  (rejected today input = false -> existsb is_Error (fst out) = false) /\
  (widget_range today input = true -> existsb is_Error (fst out) = false).
Proof.
  intros Hv Hy out. subst out.
  pose proof (resolve_rejected today input Hv Hy) as R.
  assert (Hno : rejected today input = false ->
    existsb is_Error (fst (on_submit today env timestamp input country)) = false).
  { intros E. rewrite E in R. destruct R as [birth Hb].
    apply on_submit_no_error with (birth := birth). exact Hb. }
  split; [| split; [exact Hno |]].
  - destruct (rejected today input) eqn:E.
    + destruct R as [msg Hm]. split; [reflexivity | intros _].
      exists msg. unfold on_submit. rewrite Hm. reflexivity.
    + split; [| discriminate]. intros [msg Hm]. specialize (Hno eq_refl).
      rewrite Hm in Hno. discriminate Hno.
  - intros W. apply Hno. destruct input as [d|a]; cbn [widget_range rejected] in *.
    + apply andb_true_iff in W as [_ W]. unfold date_leb in W.
      apply negb_true_iff in W. exact W.
    + bool_to_Z. apply negb_false_iff, andb_true_iff.
      split; apply Z.ltb_lt; lia.
Qed.

Lemma on_submit_error_box_witness :
  exists msg,
    on_submit (mkDate 2026 11 4) (env_with None None) 1793790000 (Age 130) ""
    = ([Error msg], None).
Proof.
  apply (proj1 (on_submit_error_box (mkDate 2026 11 4) (env_with None None)
                  1793790000 (Age 130) "" eq_refl ltac:(cbn; lia))).
  reflexivity.
Defined.





(** The decimal text of a number that is not negative has no minus sign. *)
Lemma string_of_uint_no_dash (d : Decimal.uint) :
  has_dash (NilEmpty.string_of_uint d) = false.
Proof. induction d; cbn; assumption || reflexivity. Qed.

Lemma str_int_no_dash (n : Z) : 0 <= n -> has_dash (str_int n) = false.
Proof.
  intros Hn. unfold str_int. destruct n as [|p|p]; [reflexivity | | lia].
  cbn [Z.to_int NilZero.string_of_int].
  unfold NilZero.string_of_uint.
  destruct (Pos.to_uint p); try reflexivity; apply string_of_uint_no_dash.
Qed.

(** Two texts without a minus sign, each followed by one, split a string at
    the same place. *)
Lemma split_at_dash (s1 s2 r1 r2 : string) :
  has_dash s1 = false -> has_dash s2 = false ->
  s1 ++ String "-" r1 = s2 ++ String "-" r2 ->
  s1 = s2 /\ r1 = r2.
Proof.
  revert s2. induction s1 as [|c s1 IH]; intros [|c' s2] H1 H2 H; cbn in *.
  - inversion H. auto.
  - inversion H; subst c'. rewrite Ascii.eqb_refl in H2. discriminate.
  - inversion H; subst c. rewrite Ascii.eqb_refl in H1. discriminate.
  - inversion H; subst c'.
    apply orb_false_iff in H1 as [_ H1]. apply orb_false_iff in H2 as [_ H2].
    destruct (IH s2 H1 H2 ltac:(assumption)) as [-> ->]. auto.
Qed.

(** X13: the Share ID determines the birth date and the timestamp it was
    built from: two submissions get the same ID only when they have the
    same birth date and were made in the same second. *)
Theorem share_id_inj (b b' : date) (t t' : Z) :
  valid_date b = true -> valid_date b' = true ->
  share_id b t = share_id b' t' ->
  b = b' /\ t = t'.
Proof.
  intros V V' H.
  apply valid_date_fields in V as (Hy & Hm & Hd).
  apply valid_date_fields in V' as (Hy' & Hm' & Hd').
  unfold MINYEAR in *.
  unfold share_id in H. cbn [append] in H.
  repeat match type of H with
  | String ?c _ = String ?c _ => inversion H as [H0]; clear H; rename H0 into H
  end.
  apply split_at_dash in H as [Ey H]; try (apply str_int_no_dash; lia).
  apply split_at_dash in H as [Em H]; try (apply str_int_no_dash; lia).
  apply split_at_dash in H as [Ed H]; try (apply str_int_no_dash; lia).
  apply str_int_inj in Ey, Em, Ed, H.
  destruct b, b'; cbn [year month day] in *. subst. auto.
Qed.

Lemma share_id_inj_witness :
  mkDate 1995 1 11 = mkDate 1995 1 11 /\ 1793790000 = 1793790000.
Proof.
  apply (share_id_inj (mkDate 1995 1 11) (mkDate 1995 1 11)
           1793790000 1793790000); reflexivity.
Defined.

Example share_id_1995 :
  share_id (mkDate 1995 1 11) 1793790000 = "unique-id-1995-1-11-1793790000".
Proof. reflexivity. Qed.

Example share_id_distinct :
  share_id (mkDate 1995 1 11) 0 <> share_id (mkDate 1995 11 1) 0.
Proof. discriminate. Qed.

(** X14: the sign never changes where a month ends.  In every month the
    days from the 23rd on have the sign of the first days, up to the 18th,
    of the following month, December running into January. *)
Theorem star_sign_across_months (y y' m d d' : Z) :
  1 <= m <= 12 -> 23 <= d -> d' <= 18 ->
  get_star_sign (mkDate y m d) = get_star_sign (mkDate y' (next_month m) d').
Proof.
  intros Hm Hd Hd'. unfold get_star_sign, next_month. cbn [month day].
  each_month m Hm; cbn [Z.eqb Pos.eqb Z.add Pos.add Pos.succ andb orb];
    split_day d; cbn [andb orb]; try lia;
    split_day d'; cbn [andb orb]; first [reflexivity | lia].
Qed.

Lemma star_sign_across_months_witness :
  get_star_sign (mkDate 1999 12 31) = get_star_sign (mkDate 2000 (next_month 12) 1).
Proof.
  apply (star_sign_across_months 1999 2000 12 31 1); lia.
Defined.
